(** * The empty state of the logged models list page

    A shallow embedding of the React component
    [ExperimentLoggedModelListPageTableEmpty]
    (mlflow/server/js/src/experiment-tracking/components/
     experiment-logged-models/ExperimentLoggedModelListPageTableEmpty.tsx).

    A function component is a function from its props and the current value
    of its hooks to an element tree.  The tree carries the event handlers of
    that render, each one a closure over the state of that render; an event
    is delivered to the handler found in the tree of the current render, the
    state cell is updated and the component is rendered again. *)

From Stdlib Require Import String Ascii List Bool ZArith Arith Lia.
Import ListNotations.
Open Scope list_scope.
Open Scope string_scope.

(** ** JavaScript values the component relies on *)

Module JS.

(** The strings of this component are ASCII.  Of the ASCII characters,
    [String.prototype.trim] strips TAB, LF, VT, FF, CR and SP.  It also
    strips white space outside ASCII (U+00A0, U+FEFF, U+2028, U+2029, the
    space separators), which does not occur in these strings: [trim] below
    is the built-in on ASCII strings only. *)
Definition isWhiteSpace (c : ascii) : bool :=
  let n := nat_of_ascii c in
  ((9 <=? n)%nat && (n <=? 13)%nat) || (n =? 32)%nat.

Fixpoint trimStart (s : string) : string :=
  match s with
  | EmptyString => EmptyString
  | String c s' => if isWhiteSpace c then trimStart s' else s
  end.

Fixpoint rev_onto (s acc : string) : string :=
  match s with
  | EmptyString => acc
  | String c s' => rev_onto s' (String c acc)
  end.

Definition rev (s : string) : string := rev_onto s EmptyString.

Definition trimEnd (s : string) : string := rev (trimStart (rev s)).

Definition trim (s : string) : string := trimEnd (trimStart s).

(** An [Error] object, as far as the component reads it. *)
Record Error : Type := mkError { message : string }.

(** [ToBoolean] of a value of type [Error | undefined]: an object is truthy,
    [undefined] is falsy. *)
Definition truthy {A : Type} (v : option A) : bool :=
  match v with
  | Some _ => true
  | None => false
  end.

(** A destructuring default, [{ x = d }]: it applies when the property is
    [undefined]. *)
Definition withDefault {A : Type} (d : A) (v : option A) : A :=
  match v with
  | Some x => x
  | None => d
  end.

End JS.

(** ** Element trees *)

Module React.

(** What an event handler of this component does when it runs: it calls the
    setter of the [isCodeExampleVisible] state cell with a value that was
    computed when the handler was created, that is, at render time. *)
Inductive Handler : Type :=
| setIsCodeExampleVisible (v : bool).

(** [El type props children] is [React.createElement(type, props, ...children)].
    [Chunks] stands for the parameter of a rich text formatter
    [(chunks) => body], which is [VFormatter body]. *)
#[local] Set Warnings "-register-all".
Inductive Element : Type :=
| El (type : string) (props : list (string * PropV)) (children : list Element)
| TextNode (s : string)
| Chunks
with PropV : Type :=
| VStr (s : string)
| VNum (z : Z)
| VBool (b : bool)
| VUndefined
| VNull
| VNode (e : Element)
| VObj (fields : list (string * PropV))
| VFormatter (body : Element)
| VHandler (h : Handler).

Fixpoint lookup (k : string) (ps : list (string * PropV)) : option PropV :=
  match ps with
  | [] => None
  | (k', v) :: ps' => if String.eqb k k' then Some v else lookup k ps'
  end.

Definition prop (k : string) (e : Element) : option PropV :=
  match e with
  | El _ props _ => lookup k props
  | _ => None
  end.

Definition children (e : Element) : list Element :=
  match e with
  | El _ _ cs => cs
  | _ => []
  end.

Definition child (i : nat) (e : Element) : option Element :=
  nth_error (children e) i.

Definition componentId (props : list (string * PropV)) : option string :=
  match lookup "componentId" props with
  | Some (VStr s) => Some s
  | _ => None
  end.

(** An event names its target by the target's [componentId] and the handler
    prop it invokes. *)
Definition Event : Type := (option string * string)%type.

Definition option_string_eqb (a b : option string) : bool :=
  match a, b with
  | Some x, Some y => String.eqb x y
  | None, None => true
  | _, _ => false
  end.

Definition event_eqb (a b : Event) : bool :=
  option_string_eqb (fst a) (fst b) && String.eqb (snd a) (snd b).

(** Every handler of a tree, with the event that invokes it, in document
    order.  Elements passed as props and the bodies of formatters are part of
    the rendered output, so they are searched too. *)
Fixpoint handlers (e : Element) : list (Event * Handler) :=
  match e with
  | El _ props cs =>
      let cid := componentId props in
      ((fix ofProps (ps : list (string * PropV)) : list (Event * Handler) :=
          match ps with
          | [] => []
          | (k, v) :: ps' => (propHandlers cid k v ++ ofProps ps')%list
          end) props
       ++
       (fix ofChildren (l : list Element) : list (Event * Handler) :=
          match l with
          | [] => []
          | c :: l' => (handlers c ++ ofChildren l')%list
          end) cs)%list
  | TextNode _ => []
  | Chunks => []
  end
with propHandlers (cid : option string) (k : string) (v : PropV)
  : list (Event * Handler) :=
  match v with
  | VHandler h => [((cid, k), h)]
  | VNode e => handlers e
  | VFormatter body => handlers body
  | VObj fields =>
      (fix ofFields (fs : list (string * PropV)) : list (Event * Handler) :=
         match fs with
         | [] => []
         | (k', v') :: fs' => (propHandlers cid k' v' ++ ofFields fs')%list
         end) fields
  | VStr _ | VNum _ | VBool _ | VUndefined | VNull => []
  end.

Fixpoint assoc (ev : Event) (hs : list (Event * Handler)) : option Handler :=
  match hs with
  | [] => None
  | (ev', h) :: hs' => if event_eqb ev ev' then Some h else assoc ev hs'
  end.

Definition find_handler (ev : Event) (tree : Element) : option Handler :=
  assoc ev (handlers tree).

(** Every element of type [t] in a tree, in document order, searched the way
    [handlers] searches. *)
Fixpoint elementsOfType (t : string) (e : Element) : list Element :=
  match e with
  | El ty props cs =>
      ((if String.eqb ty t then [e] else [])
       ++
       (fix ofProps (ps : list (string * PropV)) : list Element :=
          match ps with
          | [] => []
          | (_, v) :: ps' => (propElements t v ++ ofProps ps')%list
          end) props
       ++
       (fix ofChildren (l : list Element) : list Element :=
          match l with
          | [] => []
          | c :: l' => (elementsOfType t c ++ ofChildren l')%list
          end) cs)%list
  | TextNode _ => []
  | Chunks => []
  end
with propElements (t : string) (v : PropV) : list Element :=
  match v with
  | VNode e => elementsOfType t e
  | VFormatter body => elementsOfType t body
  | VObj fields =>
      (fix ofFields (fs : list (string * PropV)) : list Element :=
         match fs with
         | [] => []
         | (_, v') :: fs' => (propElements t v' ++ ofFields fs')%list
         end) fields
  | VStr _ | VNum _ | VBool _ | VUndefined | VNull | VHandler _ => []
  end.

(** The [defaultMessage] of a prop that holds a [FormattedMessage] element:
    the text shown when no translation overrides it. *)
Definition defaultMessage (v : option PropV) : option string :=
  match v with
  | Some (VNode (El "FormattedMessage" props _)) =>
      match lookup "defaultMessage" props with
      | Some (VStr s) => Some s
      | _ => None
      end
  | _ => None
  end.

End React.

Import JS React.

(** ** The module constants *)

Definition dq : string := String "034" EmptyString.
Definition nl : string := String "010" EmptyString.

Definition EXAMPLE_INSTALL_CODE : string := "pip install 'mlflow>=3'".

(** The lines of the template literal of [EXAMPLE_CODE]; the literal opens
    with a line break, hence the empty first line. *)
Definition EXAMPLE_CODE_lines : list string := [
    EmptyString;
    "import pandas as pd";
    "from sklearn.linear_model import ElasticNet";
    "from sklearn.metrics import mean_squared_error, mean_absolute_error, r2_score";
    "from sklearn.datasets import load_iris";
    "from sklearn.model_selection import train_test_split";
    EmptyString;
    "import mlflow";
    "import mlflow.sklearn";
    "from mlflow.entities import Dataset";
    EmptyString;
    "# Helper function to compute metrics";
    "def compute_metrics(actual, predicted):";
    "    rmse = mean_squared_error(actual, predicted) ";
    "    mae = mean_absolute_error(actual, predicted)";
    "    r2 = r2_score(actual, predicted)";
    "    return rmse, mae, r2";
    EmptyString;
    "# Load Iris dataset and prepare the DataFrame";
    "iris = load_iris()";
    "iris_df = pd.DataFrame(data=iris.data, columns=iris.feature_names)";
    "iris_df['quality'] = (iris.target == 2).astype(int)  # Create a binary target for simplicity";
    EmptyString;
    "# Split into training and testing datasets";
    "train_df, test_df = train_test_split(iris_df, test_size=0.2, random_state=42)";
    EmptyString;
    "# Start a run to represent the training job";
    "with mlflow.start_run() as training_run:";
    "    # Load the training dataset with MLflow. We will link training metrics to this dataset.";
    "    train_dataset: Dataset = mlflow.data.from_pandas(train_df, name=" ++ dq ++ "train" ++ dq ++ ")";
    "    train_x = train_dataset.df.drop([" ++ dq ++ "quality" ++ dq ++ "], axis=1)";
    "    train_y = train_dataset.df[[" ++ dq ++ "quality" ++ dq ++ "]]";
    EmptyString;
    "    # Fit a model to the training dataset";
    "    lr = ElasticNet(alpha=0.5, l1_ratio=0.5, random_state=42)";
    "    lr.fit(train_x, train_y)";
    EmptyString;
    "    # Log the model, specifying its ElasticNet parameters (alpha, l1_ratio)";
    "    # As a new feature, the LoggedModel entity is linked to its name and params";
    "    model_info = mlflow.sklearn.log_model(";
    "        sk_model=lr,";
    "        name=" ++ dq ++ "elasticnet" ++ dq ++ ",";
    "        params={";
    "            " ++ dq ++ "alpha" ++ dq ++ ": 0.5,";
    "            " ++ dq ++ "l1_ratio" ++ dq ++ ": 0.5,";
    "        },";
    "        input_example = train_x";
    "    )";
    EmptyString;
    "    # Inspect the LoggedModel and its properties";
    "    logged_model = mlflow.get_logged_model(model_info.model_id)";
    "    print(logged_model.model_id, logged_model.params)";
    EmptyString;
    "    # Evaluate the model on the training dataset and log metrics";
    "    # These metrics are now linked to the LoggedModel entity";
    "    predictions = lr.predict(train_x)";
    "    (rmse, mae, r2) = compute_metrics(train_y, predictions)";
    "    mlflow.log_metrics(";
    "        metrics={";
    "            " ++ dq ++ "rmse" ++ dq ++ ": rmse,";
    "            " ++ dq ++ "r2" ++ dq ++ ": r2,";
    "            " ++ dq ++ "mae" ++ dq ++ ": mae,";
    "        },";
    "        model_id=logged_model.model_id,";
    "        dataset=train_dataset";
    "    )";
    EmptyString;
    "    # Inspect the LoggedModel, now with metrics";
    "    logged_model = mlflow.get_logged_model(model_info.model_id)";
    "    print(logged_model.model_id, logged_model.metrics)"  ].

Definition EXAMPLE_CODE : string := trim (String.concat nl EXAMPLE_CODE_lines).

(** ** The component *)

(** The props object.  Every property is optional: [None] is a property that
    was omitted, or passed as [undefined]. *)
Record Props : Type := mkProps {
  displayShowExampleButton : option bool;
  isFilteringActive : option bool;
  badRequestError : option Error
}.

(** The part of the design system theme the component reads: two lengths,
    in pixels. *)
Record General : Type := mkGeneral { heightBase : Z }.
Record Spacing : Type := mkSpacing { lg : Z }.
Record Theme : Type := mkTheme { general : General; spacing : Spacing }.

(** [useState(false)]: the state cell starts out as [false]. *)
Definition useState_initial : bool := false.

(** A theme and a documentation link to run the component with. *)
Definition exampleTheme : Theme := mkTheme (mkGeneral 40) (mkSpacing 16).
Definition exampleDocsLink (_ : unit) : string := "https://mlflow.org/docs/latest/mlflow-3/".

Section Component.

(** [useDesignSystemTheme()] and [getMlflow3DocsLink] come from modules
    outside this component. *)
Variable theme : Theme.
Variable getMlflow3DocsLink : unit -> string.

(** One render: [isCodeExampleVisible] is the current value of the state
    cell, as [useState] returns it. *)
Definition ExperimentLoggedModelListPageTableEmpty
    (props : Props) (isCodeExampleVisible : bool) : Element :=
  let displayShowExampleButton := withDefault true props.(displayShowExampleButton) in
  let isFilteringActive := withDefault false props.(isFilteringActive) in
  let badRequestError := props.(badRequestError) in
  El "div"
    [("css", VObj [
        ("inset", VNum 0);
        ("top", VNum (theme.(general).(heightBase) + theme.(spacing).(lg)));
        ("position", VStr "absolute");
        ("display", VStr "flex");
        ("justifyContent", VStr "center");
        ("alignItems", VStr "center");
        ("minHeight", VNum 160)])]
    [ El "Empty"
        [("title",
          if truthy badRequestError then
            VNode (El "FormattedMessage"
              [("defaultMessage", VStr "Request error");
               ("description", VStr "Error state title displayed in the logged models list page")]
              [])
          else if isFilteringActive then
            VNode (El "FormattedMessage"
              [("defaultMessage", VStr "No models found");
               ("description", VStr "Empty state title displayed when all models are filtered out in the logged models list page")]
              [])
          else
            VNode (El "FormattedMessage"
              [("defaultMessage", VStr "No models logged");
               ("description", VStr "Placeholder for empty models table on the logged models list page")]
              []));
         ("description",
          match badRequestError with
          | Some err => VStr err.(message)
          | None =>
              if isFilteringActive then
                VNode (El "FormattedMessage"
                  [("defaultMessage", VStr "We couldn't find any models matching your search criteria. Try changing your search filters.");
                   ("description", VStr "Empty state message displayed when all models are filtered out in the logged models list page")]
                  [])
              else
                VNode (El "FormattedMessage"
                  [("defaultMessage", VStr "Your models will appear here once you log them using newest version of MLflow. <link>Learn more</link>.");
                   ("description", VStr "Placeholder for empty models table on the logged models list page");
                   ("values", VObj [
                      ("link", VFormatter
                         (El "Typography.Link"
                            [("componentId", VStr "mlflow.logged_models.list.no_results_learn_more");
                             ("openInNewTab", VBool true);
                             ("href", VStr (getMlflow3DocsLink tt))]
                            [Chunks]))])]
                  [])
          end);
         ("image",
          if truthy badRequestError then VNode (El "DangerIcon" [] []) else VUndefined);
         ("button",
          if displayShowExampleButton && negb isFilteringActive && negb (truthy badRequestError) then
            VNode (El "Button"
              [("type", VStr "primary");
               ("componentId", VStr "mlflow.logged_models.list.show_example_code");
               ("onClick", VHandler (setIsCodeExampleVisible (negb isCodeExampleVisible)))]
              [ El "FormattedMessage"
                  [("defaultMessage", VStr "Show example code");
                   ("description", VStr "Button for showing logged models quickstart example code")]
                  [] ])
          else VNull)]
        [];
      El "Modal"
        [("size", VStr "wide");
         ("visible", VBool isCodeExampleVisible);
         ("onCancel", VHandler (setIsCodeExampleVisible false));
         ("title",
          VNode (El "FormattedMessage"
            [("defaultMessage", VStr "Example code");
             ("description", VStr "Title of the modal with the logged models quickstart example code")]
            []));
         ("componentId", VStr "mlflow.logged_models.list.example_code_modal");
         ("okText",
          VNode (El "FormattedMessage"
            [("defaultMessage", VStr "Close");
             ("description", VStr "Button for closing modal with the logged models quickstart example code")]
            []));
         ("onOk", VHandler (setIsCodeExampleVisible false))]
        [ El "Typography.Text" []
            [ El "FormattedMessage"
                [("defaultMessage", VStr "Install <code>mlflow</code> 3:");
                 ("description", VStr "Instruction for installing MLflow 3 to log MLflow 3 models");
                 ("values", VObj [("code", VFormatter (El "code" [] [Chunks]))])]
                [] ];
          El "CodeSnippet" [("language", VStr "text")] [TextNode EXAMPLE_INSTALL_CODE];
          El "Spacer" [("size", VStr "sm")] [];
          El "FormattedMessage"
            [("defaultMessage", VStr "Run example training code:");
             ("description", VStr "Instruction for running example training code in order to log MLflow 3 models")]
            [];
          El "CodeSnippet" [("language", VStr "python")] [TextNode EXAMPLE_CODE] ] ].

(** *** Reading a render *)

Definition EmptyOf (tree : Element) : option Element := child 0 tree.
Definition ModalOf (tree : Element) : option Element := child 1 tree.

Definition emptyProp (k : string) (tree : Element) : option PropV :=
  match EmptyOf tree with
  | Some e => prop k e
  | None => None
  end.

Definition modalProp (k : string) (tree : Element) : option PropV :=
  match ModalOf tree with
  | Some m => prop k m
  | None => None
  end.

Definition title (p : Props) (s : bool) : option PropV :=
  emptyProp "title" (ExperimentLoggedModelListPageTableEmpty p s).

Definition description (p : Props) (s : bool) : option PropV :=
  emptyProp "description" (ExperimentLoggedModelListPageTableEmpty p s).

Definition image (p : Props) (s : bool) : option PropV :=
  emptyProp "image" (ExperimentLoggedModelListPageTableEmpty p s).

Definition button (p : Props) (s : bool) : option PropV :=
  emptyProp "button" (ExperimentLoggedModelListPageTableEmpty p s).

(** A button is rendered when the [button] prop of [Empty] holds an element,
    not [null]. *)
Definition buttonRendered (p : Props) (s : bool) : bool :=
  match button p s with
  | Some (VNode (El "Button" _ _)) => true
  | _ => false
  end.

Definition modalVisible (p : Props) (s : bool) : option PropV :=
  modalProp "visible" (ExperimentLoggedModelListPageTableEmpty p s).

Definition modalContent (p : Props) (s : bool) : list Element :=
  match ModalOf (ExperimentLoggedModelListPageTableEmpty p s) with
  | Some m => children m
  | None => []
  end.

(** The text of the code blocks in a list of elements, each with its
    [language]. *)
Definition codeSnippets (l : list Element) : list (option PropV * list Element) :=
  flat_map (fun e =>
    match e with
    | El "CodeSnippet" props cs => [(lookup "language" props, cs)]
    | _ => []
    end) l.

(** *** Events *)

Definition clickButton : Event :=
  (Some "mlflow.logged_models.list.show_example_code", "onClick").
Definition cancelModal : Event :=
  (Some "mlflow.logged_models.list.example_code_modal", "onCancel").
Definition okModal : Event :=
  (Some "mlflow.logged_models.list.example_code_modal", "onOk").

(** Running a handler: the setter replaces the state cell. *)
Definition run (h : Handler) (s : bool) : bool :=
  match h with
  | setIsCodeExampleVisible v => v
  end.

(** Delivering an event to the current render.  An event with no handler in
    the tree (the target is not rendered, or has no such handler) leaves the
    state cell as it is. *)
Definition dispatch (p : Props) (s : bool) (ev : Event) : bool :=
  match find_handler ev (ExperimentLoggedModelListPageTableEmpty p s) with
  | Some h => run h s
  | None => s
  end.

(** A sequence of events, with a render between any two of them. *)
Fixpoint dispatchAll (p : Props) (s : bool) (evs : list Event) : bool :=
  match evs with
  | [] => s
  | ev :: evs' => dispatchAll p (dispatch p s ev) evs'
  end.

(** The states the component can be in under props [p], starting from its
    mount. *)
Inductive reachable (p : Props) : bool -> Prop :=
| reachable_mount : reachable p useState_initial
| reachable_event : forall s ev, reachable p s -> reachable p (dispatch p s ev).

(** A run in which the parent may pass new props before each event. *)
Fixpoint dispatchWithProps (s : bool) (steps : list (Props * Event)) : bool :=
  match steps with
  | [] => s
  | (p, ev) :: steps' => dispatchWithProps (dispatch p s ev) steps'
  end.

(** The clicks on the button since the modal was last closed by its cancel
    action or its OK button, counted along a sequence of events from a count
    [n] so far. *)
Definition isClose (ev : Event) : bool :=
  event_eqb ev cancelModal || event_eqb ev okModal.

Definition countClick (n : nat) (ev : Event) : nat :=
  if event_eqb ev clickButton then S n
  else if isClose ev then 0
  else n.

Definition clicksSinceClose (evs : list Event) : nat :=
  fold_left countClick evs 0.

(** *** The display state, as the specification defines it *)

Inductive DisplayState : Type := RequestError | FilteredEmpty | TrulyEmpty.

(** Precedence: a request error first, then an active filter. *)
Definition displayState (p : Props) : DisplayState :=
  match p.(badRequestError) with
  | Some _ => RequestError
  | None =>
      match p.(isFilteringActive) with
      | Some true => FilteredEmpty
      | _ => TrulyEmpty
      end
  end.

Definition titleText (d : DisplayState) : string :=
  match d with
  | RequestError => "Request error"
  | FilteredEmpty => "No models found"
  | TrulyEmpty => "No models logged"
  end.

Abbreviation render := ExperimentLoggedModelListPageTableEmpty.

(** Case analysis on the props: each boolean is true, false or omitted, the
    error is present or not. *)
Ltac by_props p :=
  destruct p as [[[|]|] [[|]|] [?err|]]; try reflexivity.

(** ** Properties *)

(** *** Events and handlers *)

Lemma option_string_eqb_eq (a b : option string) :
  option_string_eqb a b = true <-> a = b.
Proof.
  destruct a as [x|], b as [y|]; simpl; try (split; congruence).
  rewrite String.eqb_eq. split; congruence.
Qed.

Lemma event_eqb_eq (a b : Event) : event_eqb a b = true <-> a = b.
Proof.
  destruct a as [a1 a2], b as [b1 b2]. unfold event_eqb. simpl.
  rewrite andb_true_iff, option_string_eqb_eq, String.eqb_eq.
  split; [intros [-> ->]; reflexivity | intros H; inversion H; auto].
Qed.

Lemma event_eqb_refl (a : Event) : event_eqb a a = true.
Proof. apply event_eqb_eq. reflexivity. Qed.

Lemma event_eqb_neq (a b : Event) : a <> b -> event_eqb a b = false.
Proof.
  intros H. destruct (event_eqb a b) eqn:E; [|reflexivity].
  apply event_eqb_eq in E. contradiction.
Qed.

(** The handlers of a render: the one of the button when it is rendered,
    then the two of the modal. *)
Lemma handlers_render (p : Props) (s : bool) :
  handlers (render p s) =
  ((if buttonRendered p s
    then [(clickButton, setIsCodeExampleVisible (negb s))]
    else [])
   ++ [(cancelModal, setIsCodeExampleVisible false);
       (okModal, setIsCodeExampleVisible false)])%list.
Proof. by_props p. Qed.

Lemma buttonRendered_state (p : Props) (s s' : bool) :
  buttonRendered p s = buttonRendered p s'.
Proof. by_props p. Qed.

Lemma modalVisible_state (p : Props) (s : bool) :
  modalVisible p s = Some (VBool s).
Proof. reflexivity. Qed.

Lemma dispatch_click_rendered (p : Props) (s : bool) :
  buttonRendered p s = true -> dispatch p s clickButton = negb s.
Proof.
  intros H. unfold dispatch, find_handler.
  rewrite handlers_render, H. reflexivity.
Qed.

Lemma dispatch_click_hidden (p : Props) (s : bool) :
  buttonRendered p s = false -> dispatch p s clickButton = s.
Proof.
  intros H. unfold dispatch, find_handler.
  rewrite handlers_render, H. reflexivity.
Qed.

Lemma dispatch_cancel (p : Props) (s : bool) : dispatch p s cancelModal = false.
Proof.
  unfold dispatch, find_handler. rewrite handlers_render.
  destruct (buttonRendered p s); reflexivity.
Qed.

Lemma dispatch_ok (p : Props) (s : bool) : dispatch p s okModal = false.
Proof.
  unfold dispatch, find_handler. rewrite handlers_render.
  destruct (buttonRendered p s); reflexivity.
Qed.

Lemma dispatch_other (p : Props) (s : bool) (ev : Event) :
  ev <> clickButton -> ev <> cancelModal -> ev <> okModal ->
  dispatch p s ev = s.
Proof.
  intros Hc Hx Ho. unfold dispatch, find_handler. rewrite handlers_render.
  destruct (buttonRendered p s); cbn [app assoc];
    rewrite ?(event_eqb_neq _ _ Hc), (event_eqb_neq _ _ Hx), (event_eqb_neq _ _ Ho);
    reflexivity.
Qed.

(** With the button hidden, no event raises the flag. *)
Lemma dispatch_hidden_closed (p : Props) (ev : Event) :
  buttonRendered p false = false -> dispatch p false ev = false.
Proof.
  intros H. unfold dispatch, find_handler. rewrite handlers_render, H.
  cbn [app assoc].
  destruct (event_eqb ev cancelModal); [reflexivity|].
  destruct (event_eqb ev okModal); reflexivity.
Qed.

(** The only handler that can raise the flag is the one of the button, in a
    render where the flag is down. *)
Lemma only_click_opens (p : Props) (s : bool) (ev : Event) :
  find_handler ev (render p s) = Some (setIsCodeExampleVisible true) ->
  ev = clickButton /\ s = false /\ buttonRendered p s = true.
Proof.
  unfold find_handler. rewrite handlers_render.
  destruct (buttonRendered p s); cbn [app assoc].
  - destruct (event_eqb ev clickButton) eqn:E.
    + apply event_eqb_eq in E. intros H. inversion H.
      destruct s; [discriminate|]. auto.
    + destruct (event_eqb ev cancelModal); [discriminate|].
      destruct (event_eqb ev okModal); discriminate.
  - destruct (event_eqb ev cancelModal); [discriminate|].
    destruct (event_eqb ev okModal); discriminate.
Qed.

Lemma dispatchAll_clicks (p : Props) (n : nat) (s : bool) :
  buttonRendered p s = true ->
  dispatchAll p s (repeat clickButton n) = xorb s (Nat.odd n).
Proof.
  revert s. induction n as [|n IH]; intros s H.
  - simpl. destruct s; reflexivity.
  - cbn [repeat dispatchAll]. rewrite (dispatch_click_rendered p s H).
    rewrite IH by (rewrite <- H; apply buttonRendered_state).
    rewrite Nat.odd_succ, <- Nat.negb_odd.
    destruct s, (Nat.odd n); reflexivity.
Qed.

(** A run in which every render hides the button, whatever props the parent
    passes from one render to the next, keeps the modal closed. *)
Lemma dispatchWithProps_hidden (steps : list (Props * Event)) :
  Forall (fun st => buttonRendered (fst st) false = false) steps ->
  dispatchWithProps useState_initial steps = false.
Proof.
  unfold useState_initial.
  induction steps as [|[p ev] steps IH]; intros H; [reflexivity|].
  inversion H as [|? ? Hp Hrest]; subst. simpl in Hp.
  cbn [dispatchWithProps]. rewrite (dispatch_hidden_closed p ev Hp).
  apply IH, Hrest.
Qed.

(** The restriction to renders that hide the button matters: a modal that
    was opened while the button was rendered stays visible when the parent
    then passes props that hide the button. *)
Example modal_survives_props_change :
  let s := dispatchWithProps useState_initial [(mkProps None None None, clickButton)] in
  let p' := mkProps None (Some true) None in
  buttonRendered p' s = false /\ modalVisible p' s = Some (VBool true).
Proof. split; reflexivity. Qed.

(** *** Scenarios *)

Example scenario_error :
  let p := mkProps None None (Some (mkError "boom")) in
  defaultMessage (title p useState_initial) = Some "Request error" /\
  description p useState_initial = Some (VStr "boom") /\
  button p useState_initial = Some VNull.
Proof. repeat split. Qed.

Example scenario_filtering :
  let p := mkProps None (Some true) None in
  defaultMessage (title p useState_initial) = Some "No models found" /\
  button p useState_initial = Some VNull.
Proof. repeat split. Qed.

Example scenario_no_example_button :
  let p := mkProps (Some false) None None in
  defaultMessage (title p useState_initial) = Some "No models logged" /\
  button p useState_initial = Some VNull.
Proof. repeat split. Qed.

Example scenario_open_and_close :
  let p := mkProps None None None in
  dispatchAll p useState_initial [clickButton] = true /\
  dispatchAll p useState_initial [clickButton; okModal] = false /\
  dispatchAll p useState_initial [clickButton; cancelModal] = false /\
  dispatchAll p useState_initial [clickButton; clickButton] = false.
Proof. repeat split. Qed.

(** *** The example code *)

(** [trim] removes the line break that opens the template literal and
    nothing else. *)
Lemma EXAMPLE_CODE_trimmed :
  EXAMPLE_CODE = String.concat nl (tl EXAMPLE_CODE_lines).
Proof. vm_compute. reflexivity. Qed.

(** *** The empty state *)

(** C1.  The title follows an ordered precedence.  With [badRequestError]
    present the title is the one of the error variant, Request error,
    whatever [isFilteringActive] and [displayShowExampleButton] are; with no
    error and [isFilteringActive] true it is No models found; with no error
    and no active filter (false, or omitted) it is No models logged.  So the
    title is the one of the display state of the specification. *)
Theorem title_by_precedence :
  (forall d f err s,
      defaultMessage (title (mkProps d f (Some err)) s) = Some "Request error") /\
  (forall d s,
      defaultMessage (title (mkProps d (Some true) None) s) = Some "No models found") /\
  (forall d s,
      defaultMessage (title (mkProps d (Some false) None) s) = Some "No models logged" /\
      defaultMessage (title (mkProps d None None) s) = Some "No models logged") /\
  (forall p s,
      defaultMessage (title p s) = Some (titleText (displayState p))).
Proof.
  split; [|split; [|split]].
  - intros [[|]|] [[|]|] err s; reflexivity.
  - intros [[|]|] s; reflexivity.
  - intros [[|]|] s; split; reflexivity.
  - intros p s. by_props p.
Qed.

(** C2.  The call-to-action button is rendered if and only if
    [badRequestError] is absent, [isFilteringActive] is not passed as true
    (it is false or omitted) and [displayShowExampleButton] is not passed as
    false (it is true or omitted).  When no button is rendered, the [button]
    prop of [Empty] is [null]. *)
Theorem button_rendered_iff (p : Props) (s : bool) :
  (buttonRendered p s = true <->
   (p.(badRequestError) = None /\
    p.(isFilteringActive) <> Some true /\
    p.(displayShowExampleButton) <> Some false)) /\
  (buttonRendered p s = false <-> button p s = Some VNull).
Proof.
  by_props p; cbv [badRequestError isFilteringActive displayShowExampleButton];
    (split; split; intros H;
     try discriminate H; try reflexivity;
     try (repeat split; discriminate);
     try (destruct H as (H1 & H2 & H3); congruence)).
Qed.

(** C3.  The click handler of the button negates the value of the state cell
    it was rendered with.  Starting from the initial, closed state, after [n]
    clicks on the button and no other event the modal is visible exactly when
    [n] is odd. *)
Theorem clicks_parity (p : Props) (n : nat) :
  buttonRendered p useState_initial = true ->
  (forall s, find_handler clickButton (render p s)
             = Some (setIsCodeExampleVisible (negb s))) /\
  dispatchAll p useState_initial (repeat clickButton n) = Nat.odd n /\
  modalVisible p (dispatchAll p useState_initial (repeat clickButton n))
  = Some (VBool (Nat.odd n)).
Proof.
  intros H.
  assert (Hn : dispatchAll p useState_initial (repeat clickButton n) = Nat.odd n).
  { rewrite (dispatchAll_clicks p n _ H). reflexivity. }
  split; [|split].
  - intros s. unfold find_handler. rewrite handlers_render.
    rewrite (buttonRendered_state p s useState_initial), H. reflexivity.
  - exact Hn.
  - rewrite Hn. apply modalVisible_state.
Qed.

(** C4.  With [badRequestError] present, the description passed to [Empty] is
    the [message] string of the error, as it is, whatever the string. *)
Theorem error_description_verbatim :
  forall d f (err : Error) s,
    description (mkProps d f (Some err)) s = Some (VStr err.(message)).
Proof. intros [[|]|] [[|]|] err s; reflexivity. Qed.

(** C5.  The modal is a machine with two states, closed ([false]) and open
    ([true]); the state is the [visible] prop of the modal and starts closed.
    A click on the button, when the button is rendered, takes closed to open
    and open to closed; the cancel action and the OK button of the modal take
    any state to closed; no other event changes the state. *)
Theorem modal_state_machine (p : Props) :
  useState_initial = false /\
  (forall s, modalVisible p s = Some (VBool s)) /\
  (buttonRendered p useState_initial = true ->
   dispatch p false clickButton = true /\ dispatch p true clickButton = false) /\
  (forall s, dispatch p s cancelModal = false) /\
  (forall s, dispatch p s okModal = false) /\
  (forall s ev,
      ev <> clickButton -> ev <> cancelModal -> ev <> okModal ->
      dispatch p s ev = s).
Proof.
  split; [reflexivity|].
  split; [apply modalVisible_state|].
  split.
  { intros H. split.
    - apply (dispatch_click_rendered p false). exact H.
    - apply (dispatch_click_rendered p true).
      rewrite <- H. apply buttonRendered_state. }
  split; [apply dispatch_cancel|].
  split; [apply dispatch_ok|].
  apply dispatch_other.
Qed.

(** C6.  The content of the modal is the same for all props and states: two
    code blocks, the install command [pip install 'mlflow>=3'] as text and
    the one example script as python.  After [render({})] and one click on
    the button the modal is visible, with that content. *)
Theorem modal_content_constant :
  (forall p s p' s', modalContent p s = modalContent p' s') /\
  (forall p s,
      codeSnippets (modalContent p s)
      = [(Some (VStr "text"), [TextNode "pip install 'mlflow>=3'"]);
         (Some (VStr "python"),
          [TextNode (String.concat nl (tl EXAMPLE_CODE_lines))])]) /\
  (let p := mkProps None None None in
   let s := dispatch p useState_initial clickButton in
   buttonRendered p useState_initial = true /\
   modalVisible p s = Some (VBool true) /\
   codeSnippets (modalContent p s)
   = [(Some (VStr "text"), [TextNode EXAMPLE_INSTALL_CODE]);
      (Some (VStr "python"), [TextNode EXAMPLE_CODE])]).
Proof.
  split; [reflexivity|].
  split.
  - intros p s. rewrite <- EXAMPLE_CODE_trimmed. reflexivity.
  - repeat split.
Qed.

(** C7.  An omitted prop takes its default: leaving out
    [displayShowExampleButton] renders as passing [true], leaving out
    [isFilteringActive] renders as passing [false], and with
    [badRequestError] left out no error is shown. *)
Theorem omitted_props_take_defaults :
  (forall f e s,
      render (mkProps None f e) s = render (mkProps (Some true) f e) s) /\
  (forall d e s,
      render (mkProps d None e) s = render (mkProps d (Some false) e) s) /\
  (forall s,
      render (mkProps None None None) s
      = render (mkProps (Some true) (Some false) None) s) /\
  (forall s,
      defaultMessage (title (mkProps None None None) s) = Some "No models logged" /\
      image (mkProps None None None) s = Some VUndefined /\
      buttonRendered (mkProps None None None) s = true).
Proof.
  split; [|split; [|split]].
  - intros [[|]|] [e|] s; reflexivity.
  - intros [[|]|] [e|] s; reflexivity.
  - reflexivity.
  - intros s. repeat split.
Qed.

(** C8.  The title, the description, the image and whether a button is
    rendered depend on the props alone: two renders with the same props and
    different values of the modal flag agree on them. *)
Theorem display_independent_of_modal_state (p : Props) (s1 s2 : bool) :
  title p s1 = title p s2 /\
  description p s1 = description p s2 /\
  image p s1 = image p s2 /\
  buttonRendered p s1 = buttonRendered p s2.
Proof. repeat split; by_props p. Qed.

(** C9, as amended.  As long as no render since the mount has shown the
    button, the modal is not visible, whatever events arrived and whatever
    props hide the button from one render to the next.  In particular, under
    props that hide the button and stay the same from the mount on, the modal
    is not visible in any state the component reaches. *)
Theorem modal_closed_while_button_hidden :
  (forall (steps : list (Props * Event)) (p : Props),
      Forall (fun st => buttonRendered (fst st) useState_initial = false) steps ->
      dispatchWithProps useState_initial steps = false /\
      modalVisible p (dispatchWithProps useState_initial steps)
      = Some (VBool false)) /\
  (forall (p : Props) (s : bool),
      buttonRendered p useState_initial = false ->
      reachable p s ->
      s = false /\ modalVisible p s = Some (VBool false)).
Proof.
  split.
  - intros steps p H.
    rewrite (dispatchWithProps_hidden steps H). split; reflexivity.
  - intros p s H R.
    assert (Hs : s = false).
    { induction R as [|s ev R IH]; [reflexivity|].
      rewrite IH. apply dispatch_hidden_closed. exact H. }
    split; [exact Hs|]. rewrite Hs. apply modalVisible_state.
Qed.

(** C10.  The image passed to [Empty] is the danger icon exactly when
    [badRequestError] is present; in the two other variants it is
    [undefined]. *)
Theorem image_danger_icon_iff_error :
  (forall d f err s,
      image (mkProps d f (Some err)) s = Some (VNode (El "DangerIcon" [] []))) /\
  (forall d f s, image (mkProps d f None) s = Some VUndefined) /\
  (forall p s,
      image p s = Some (VNode (El "DangerIcon" [] [])) <->
      p.(badRequestError) <> None).
Proof.
  split; [|split].
  - intros [[|]|] [[|]|] err s; reflexivity.
  - intros [[|]|] [[|]|] s; reflexivity.
  - intros p s. by_props p; cbv [badRequestError];
      split; intros H; try discriminate; try reflexivity;
      try (exfalso; apply H; reflexivity).
Qed.

(** *** Runs of events *)

(** One event, for any props: a click on the button negates the flag when the
    button is rendered, the two closing events of the modal lower it, and
    nothing else touches it. *)
Lemma dispatch_step (p : Props) (s : bool) (ev : Event) :
  dispatch p s ev =
  if buttonRendered p s && event_eqb ev clickButton then negb s
  else if isClose ev then false
  else s.
Proof.
  unfold dispatch, find_handler, isClose. rewrite handlers_render.
  destruct (buttonRendered p s); cbn [app assoc andb].
  - destruct (event_eqb ev clickButton); [reflexivity|].
    destruct (event_eqb ev cancelModal); [reflexivity|].
    destruct (event_eqb ev okModal); reflexivity.
  - destruct (event_eqb ev cancelModal); [reflexivity|].
    destruct (event_eqb ev okModal); reflexivity.
Qed.

Lemma dispatchAll_app (p : Props) (s : bool) (evs evs' : list Event) :
  dispatchAll p s (evs ++ evs')%list = dispatchAll p (dispatchAll p s evs) evs'.
Proof.
  revert s. induction evs as [|ev evs IH]; intros s; [reflexivity|].
  simpl. apply IH.
Qed.

Lemma reachable_hidden_closed (p : Props) (s : bool) :
  buttonRendered p useState_initial = false -> reachable p s -> s = false.
Proof.
  intros H R. induction R as [|s ev R IH]; [reflexivity|].
  rewrite IH. apply dispatch_hidden_closed. exact H.
Qed.

(** X1.  In every render the handlers answer to different events, each one
    addressed to an element with a [componentId]: the handler an event
    reaches is never shadowed by another one. *)
Theorem handler_events_unambiguous (p : Props) (s : bool) :
  NoDup (map fst (handlers (render p s))) /\
  Forall (fun eh => fst (fst eh) <> None) (handlers (render p s)).
Proof.
  rewrite handlers_render.
  destruct (buttonRendered p s); cbn [app map fst]; split;
    repeat (constructor; cbn [fst]);
    try discriminate;
    cbn [In]; intros H; decompose [or] H; try discriminate; assumption.
Qed.

(** X2.  Two clicks on the button in a row leave the flag as it was, for all
    props and from either state. *)
Theorem click_twice_restores (p : Props) (s : bool) :
  dispatch p (dispatch p s clickButton) clickButton = s.
Proof.
  destruct (buttonRendered p s) eqn:E.
  - rewrite (dispatch_click_rendered p s E), dispatch_click_rendered.
    + apply negb_involutive.
    + rewrite <- E. apply buttonRendered_state.
  - rewrite (dispatch_click_hidden p s E). apply dispatch_click_hidden, E.
Qed.

(** X3.  Whatever happened before, the cancel action and the OK button of the
    modal leave the modal closed. *)
Theorem close_ends_closed (p : Props) (s : bool) (evs : list Event) :
  dispatchAll p s (evs ++ [cancelModal])%list = false /\
  dispatchAll p s (evs ++ [okModal])%list = false /\
  modalVisible p (dispatchAll p s (evs ++ [cancelModal])%list) = Some (VBool false) /\
  modalVisible p (dispatchAll p s (evs ++ [okModal])%list) = Some (VBool false).
Proof.
  rewrite !dispatchAll_app. cbn [dispatchAll].
  rewrite dispatch_cancel, dispatch_ok. repeat split.
Qed.

(** X4.  With the button rendered, after any sequence of events from the
    mount the modal is open exactly when the number of clicks on the button
    since the last closing event is odd. *)
Theorem run_parity_since_close (p : Props) (evs : list Event) :
  buttonRendered p useState_initial = true ->
  dispatchAll p useState_initial evs = Nat.odd (clicksSinceClose evs).
Proof.
  intros H. unfold clicksSinceClose, useState_initial.
  change false with (Nat.odd 0) at 1. generalize 0.
  induction evs as [|ev evs IH]; intros n; [reflexivity|].
  cbn [dispatchAll fold_left].
  replace (dispatch p (Nat.odd n) ev) with (Nat.odd (countClick n ev)); [apply IH|].
  rewrite dispatch_step, (buttonRendered_state p _ useState_initial), H.
  unfold countClick. cbn [andb].
  destruct (event_eqb ev clickButton).
  - rewrite Nat.odd_succ, <- Nat.negb_odd. reflexivity.
  - destruct (isClose ev); reflexivity.
Qed.

(** X5.  Also when the parent passes new props from one render to the next: a
    run from the mount that ends with the modal open contains a click on the
    button in a render that shows the button. *)
Theorem open_needs_click_on_rendered_button (steps : list (Props * Event)) :
  dispatchWithProps useState_initial steps = true ->
  Exists (fun st => snd st = clickButton /\ buttonRendered (fst st) false = true)
         steps.
Proof.
  unfold useState_initial. intros H.
  assert (G : forall s, dispatchWithProps s steps = true ->
              s = true \/
              Exists (fun st => snd st = clickButton /\
                                buttonRendered (fst st) false = true) steps).
  { clear H. induction steps as [|[q ev] steps IH]; intros s H.
    - left. exact H.
    - cbn [dispatchWithProps] in H. destruct (IH _ H) as [Hs|Hex].
      + destruct s; [left; reflexivity|]. right. apply Exists_cons_hd.
        rewrite dispatch_step in Hs. cbn [fst snd].
        destruct (buttonRendered q false); cbn [andb] in Hs.
        * destruct (event_eqb ev clickButton) eqn:E.
          -- apply event_eqb_eq in E. auto.
          -- destruct (isClose ev); discriminate.
        * destruct (isClose ev); discriminate.
      + right. apply Exists_cons_tl. exact Hex. }
  destruct (G false H) as [Hs|Hex]; [discriminate | exact Hex].
Qed.

(** X6.  Under fixed props the open state can be reached from the mount
    exactly when the button is rendered; the closed state always can. *)
Theorem open_reachable_iff_button (p : Props) :
  (reachable p true <-> buttonRendered p useState_initial = true) /\
  reachable p false.
Proof.
  split; [split|].
  - intros R. destruct (buttonRendered p useState_initial) eqn:E; [reflexivity|].
    pose proof (reachable_hidden_closed p true E R). discriminate.
  - intros H.
    pose proof (reachable_event p _ clickButton (reachable_mount p)) as R.
    rewrite (dispatch_click_rendered p _ H) in R. exact R.
  - apply reachable_mount.
Qed.

(** *** The variants of the empty state *)

(** X7.  The link to the documentation is rendered when [badRequestError] is
    absent and [isFilteringActive] is not passed as true: once, opening
    [getMlflow3DocsLink()] in a new tab.  With an error present, or with
    [isFilteringActive] passed as true, no link is rendered at all. *)
Theorem docs_link_only_when_nothing_logged (p : Props) (s : bool) :
  (p.(badRequestError) = None /\ p.(isFilteringActive) <> Some true ->
   elementsOfType "Typography.Link" (render p s) =
   [El "Typography.Link"
       [("componentId", VStr "mlflow.logged_models.list.no_results_learn_more");
        ("openInNewTab", VBool true);
        ("href", VStr (getMlflow3DocsLink tt))]
       [Chunks]]) /\
  (p.(badRequestError) <> None \/ p.(isFilteringActive) = Some true ->
   elementsOfType "Typography.Link" (render p s) = []).
Proof.
  destruct p as [[[|]|] [[|]|] [err|]];
    cbv [badRequestError isFilteringActive];
    (split; [intros [H1 H2] | intros [H|H]]);
    try reflexivity; try discriminate; try congruence.
Qed.

(** X8.  The button is rendered only in the variant titled No models logged,
    which has no image. *)
Theorem button_only_when_nothing_logged (p : Props) (s : bool) :
  buttonRendered p s = true ->
  defaultMessage (title p s) = Some "No models logged" /\
  image p s = Some VUndefined.
Proof.
  by_props p; intros H; try discriminate H; split; reflexivity.
Qed.

(** X9.  Title, image and description agree on the error variant: the title
    is Request error exactly when the image is the danger icon, and exactly
    when the description is a plain string instead of a message element. *)
Theorem error_variant_agrees (p : Props) (s : bool) :
  (defaultMessage (title p s) = Some "Request error" <->
   image p s = Some (VNode (El "DangerIcon" [] []))) /\
  (defaultMessage (title p s) = Some "Request error" <->
   exists m, description p s = Some (VStr m)).
Proof.
  by_props p; split; split; intros H;
    try discriminate; try reflexivity;
    try (eexists; reflexivity);
    destruct H as [m H]; discriminate.
Qed.

(** X10.  [displayShowExampleButton] decides about the button and nothing
    else; and with an error present the whole [Empty] element is the same
    whatever the two flags and the state are. *)
Theorem flags_do_not_leak :
  (forall d d' f e s,
      title (mkProps d f e) s = title (mkProps d' f e) s /\
      description (mkProps d f e) s = description (mkProps d' f e) s /\
      image (mkProps d f e) s = image (mkProps d' f e) s) /\
  (forall d d' f f' err s s',
      EmptyOf (render (mkProps d f (Some err)) s)
      = EmptyOf (render (mkProps d' f' (Some err)) s')).
Proof.
  split.
  - intros [[|]|] [[|]|] [[|]|] [e|] s; repeat split.
  - intros [[|]|] [[|]|] [[|]|] [[|]|] err s s'; reflexivity.
Qed.

End Component.

(** ** Instances *)

(** [render({})], with three clicks on the button. *)
Lemma clicks_parity_witness :
  let p := mkProps None None None in
  buttonRendered exampleTheme exampleDocsLink p useState_initial = true /\
  dispatchAll exampleTheme exampleDocsLink p useState_initial
    [clickButton; clickButton; clickButton] = true.
Proof.
  intros p. split; [reflexivity|].
  apply (clicks_parity exampleTheme exampleDocsLink p 3). reflexivity.
Defined.

(** [render({})]: the button opens the modal and closes it again. *)
Lemma modal_state_machine_witness :
  let p := mkProps None None None in
  buttonRendered exampleTheme exampleDocsLink p useState_initial = true /\
  dispatch exampleTheme exampleDocsLink p false clickButton = true /\
  dispatch exampleTheme exampleDocsLink p true clickButton = false.
Proof.
  intros p. split; [reflexivity|].
  apply (modal_state_machine exampleTheme exampleDocsLink p). reflexivity.
Defined.

(** The button is hidden throughout, first by
    [displayShowExampleButton: false], then by an active filter: the clicks
    find no handler and the modal stays closed.  And with
    [render({displayShowExampleButton: false})] kept from the mount on, the
    state after a click is closed. *)
Lemma modal_closed_while_button_hidden_witness :
  let p := mkProps (Some false) None None in
  let q := mkProps None (Some true) None in
  let steps := [(p, clickButton); (q, clickButton); (q, okModal)] in
  let s := dispatch exampleTheme exampleDocsLink p useState_initial clickButton in
  (Forall (fun st => buttonRendered exampleTheme exampleDocsLink (fst st)
                       useState_initial = false) steps /\
   modalVisible exampleTheme exampleDocsLink q
     (dispatchWithProps exampleTheme exampleDocsLink useState_initial steps)
   = Some (VBool false)) /\
  (buttonRendered exampleTheme exampleDocsLink p useState_initial = false /\
   reachable exampleTheme exampleDocsLink p s /\
   modalVisible exampleTheme exampleDocsLink p s = Some (VBool false)).
Proof.
  intros p q steps s.
  assert (F : Forall (fun st => buttonRendered exampleTheme exampleDocsLink (fst st)
                                  useState_initial = false) steps).
  { repeat constructor. }
  assert (R : reachable exampleTheme exampleDocsLink p s).
  { apply reachable_event, reachable_mount. }
  destruct (modal_closed_while_button_hidden exampleTheme exampleDocsLink)
    as [Hrun Hfixed].
  split.
  - split; [exact F|]. apply (Hrun steps q F).
  - split; [reflexivity|]. split; [exact R|].
    apply (Hfixed p s); [reflexivity | exact R].
Defined.

(** C9 as it is stated fails when the props change between renders: mount
    with [render({})], click the button, and then render again with
    [isFilteringActive: true].  The button is gone, and the modal, whose
    state no prop resets, is still visible. *)
Lemma modal_visible_without_button_counterexample :
  buttonRendered exampleTheme exampleDocsLink
    (mkProps None (Some true) None)
    (dispatchWithProps exampleTheme exampleDocsLink useState_initial
       [(mkProps None None None, clickButton)]) = false /\
  modalVisible exampleTheme exampleDocsLink
    (mkProps None (Some true) None)
    (dispatchWithProps exampleTheme exampleDocsLink useState_initial
       [(mkProps None None None, clickButton)]) = Some (VBool true) /\
  ~ (forall (p : Props) (steps : list (Props * Event)),
        buttonRendered exampleTheme exampleDocsLink p useState_initial = false ->
        modalVisible exampleTheme exampleDocsLink p
          (dispatchWithProps exampleTheme exampleDocsLink useState_initial steps)
        = Some (VBool false)).
Proof.
  split; [reflexivity|]. split; [reflexivity|].
  intros H.
  specialize (H (mkProps None (Some true) None)
                [(mkProps None None None, clickButton)] eq_refl).
  discriminate H.
Qed.

(** The link is there for [render({})]; it is gone with an active filter and
    with an error. *)
Lemma docs_link_only_when_nothing_logged_witness :
  length (elementsOfType "Typography.Link"
            (ExperimentLoggedModelListPageTableEmpty exampleTheme exampleDocsLink
               (mkProps None None None) useState_initial)) = 1 /\
  elementsOfType "Typography.Link"
    (ExperimentLoggedModelListPageTableEmpty exampleTheme exampleDocsLink
       (mkProps None (Some true) None) useState_initial) = [] /\
  elementsOfType "Typography.Link"
    (ExperimentLoggedModelListPageTableEmpty exampleTheme exampleDocsLink
       (mkProps None None (Some (mkError "boom"))) useState_initial) = [].
Proof.
  split; [|split].
  - rewrite (proj1 (docs_link_only_when_nothing_logged exampleTheme exampleDocsLink
                      (mkProps None None None) useState_initial)).
    + reflexivity.
    + split; [reflexivity | discriminate].
  - apply (proj2 (docs_link_only_when_nothing_logged exampleTheme exampleDocsLink
                    (mkProps None (Some true) None) useState_initial)).
    right. reflexivity.
  - apply (proj2 (docs_link_only_when_nothing_logged exampleTheme exampleDocsLink
                    (mkProps None None (Some (mkError "boom"))) useState_initial)).
    left. discriminate.
Defined.

(** [render({})]: open, cancel, then three more clicks. *)
Lemma run_parity_since_close_witness :
  let p := mkProps None None None in
  let evs := [clickButton; cancelModal; clickButton; clickButton; clickButton] in
  buttonRendered exampleTheme exampleDocsLink p useState_initial = true /\
  dispatchAll exampleTheme exampleDocsLink p useState_initial evs = true.
Proof.
  intros p evs. split; [reflexivity|].
  exact (run_parity_since_close exampleTheme exampleDocsLink p evs eq_refl).
Defined.

(** A filter is active at first and the click finds no button; then the
    filter is dropped and the click opens the modal. *)
Lemma open_needs_click_on_rendered_button_witness :
  let steps := [(mkProps None (Some true) None, clickButton);
                (mkProps None (Some false) None, clickButton)] in
  dispatchWithProps exampleTheme exampleDocsLink useState_initial steps = true /\
  Exists (fun st => snd st = clickButton /\
                    buttonRendered exampleTheme exampleDocsLink (fst st) false = true)
         steps.
Proof.
  intros steps. split; [reflexivity|].
  apply (open_needs_click_on_rendered_button exampleTheme exampleDocsLink steps).
  reflexivity.
Defined.

(** [render({})] shows the button, under the title No models logged. *)
Lemma button_only_when_nothing_logged_witness :
  let p := mkProps None None None in
  buttonRendered exampleTheme exampleDocsLink p useState_initial = true /\
  defaultMessage (title exampleTheme exampleDocsLink p useState_initial)
  = Some "No models logged" /\
  image exampleTheme exampleDocsLink p useState_initial = Some VUndefined.
Proof.
  intros p. split; [reflexivity|].
  apply (button_only_when_nothing_logged exampleTheme exampleDocsLink p useState_initial).
  reflexivity.
Defined.
